(** * Caption segmentation and SRT generation of [app.py]

    A shallow embedding of the caption pipeline of [app.py]
    ([transcribe_audio], [generate_srt_from_video], [generate_srt]) together
    with the Python primitives it calls, and the properties of the
    segmentation, timing and serialization logic.

    Conventions of the embedding.
    - A Python [str] is a [string]; every [ascii] stands for the code point
      of the same number (U+0000 .. U+00FF).
    - A Python [int] is a [Z].  The spacing control is a Python number, a
      [Py.number]: an [int] or finite [float], denoted by its exact rational
      value (a [Q]), or one of the floats [nan], [inf], [-inf].  The only
      operations the program applies to it are [<] and [int()]; on a finite
      number both are exact functions of its value, and the definitions
      that take a [Q] describe that case.
    - Statements that can raise live in the monad [M]: a computation takes
      the state of the world and gives an outcome (a value or a raised
      exception) and the new state of the world. *)

From Stdlib Require Import ZArith QArith Qround List String Ascii Bool Lia.
From Stdlib Require Import DecimalString.
Import ListNotations.

Local Open Scope string_scope.
Local Open Scope Z_scope.

(* ================================================================= *)
(** ** Python primitives                                               *)
(* ================================================================= *)

Module Py.

(** *** Numbers *)

(** [x < y] on Python numbers. *)
Definition lt (x y : Q) : bool :=
  match Qcompare x y with Lt => true | _ => false end.

(** [int(x)]: truncation toward zero. *)
Definition int (x : Q) : Z :=
  if Qle_bool 0 x then Qfloor x else Qceiling x.

(** [round(x)] with one argument: the nearest integer, ties going to the
    even neighbour. *)
Definition round (x : Q) : Z :=
  let f := Qfloor x in
  match Qcompare (x - inject_Z f) (1 # 2) with
  | Lt => f
  | Gt => f + 1
  | Eq => if Z.even f then f else f + 1
  end.

(** [str(n)] for an [int]. *)
Definition str_of_int (n : Z) : string :=
  NilZero.string_of_int (Z.to_int n).

(** *** Strings *)

(** [c.isspace()] on the code points below 256. *)
Definition isspace (c : ascii) : bool :=
  let n := nat_of_ascii c in
  (((9 <=? n) && (n <=? 13)) || ((28 <=? n) && (n <=? 32))
   || (n =? 133) || (n =? 160))%nat.

Definition nonempty_str (s : string) : bool :=
  match s with EmptyString => false | String _ _ => true end.

(** The text is empty or made of whitespace only. *)
Fixpoint all_space (s : string) : bool :=
  match s with
  | EmptyString => true
  | String c s' => isspace c && all_space s'
  end.

(** The scan behind [text.split()]: [cur] is the word being read. *)
Fixpoint split_from (cur : string) (s : string) : list string :=
  match s with
  | EmptyString => if nonempty_str cur then [cur] else []
  | String c s' =>
      if isspace c
      then (if nonempty_str cur then cur :: split_from "" s'
            else split_from "" s')
      else split_from (cur ++ String c "") s'
  end.

(** [text.split()]: the maximal runs of characters that are not whitespace. *)
Definition split (text : string) : list string := split_from "" text.

(** [sep.join(l)]. *)
Definition join (sep : string) (l : list string) : string :=
  String.concat sep l.

(** [s.replace(old, new)] for a non-empty [old]: [skip] counts the
    characters of a match that are still to be dropped. *)
Fixpoint replace_from (old new : string) (skip : nat) (s : string) : string :=
  match s with
  | EmptyString => EmptyString
  | String c s' =>
      match skip with
      | S k => replace_from old new k s'
      | O => if String.prefix old s
             then new ++ replace_from old new (String.length old - 1) s'
             else String c (replace_from old new O s')
      end
  end.

Definition replace (s old new : string) : string := replace_from old new O s.

(** *** Exceptions *)

(** A raised exception: its class, [str(e)], and whether the class derives
    from [Exception] (as opposed to [BaseException] only). *)
Record exn : Type := mk_exn {
  exn_class : string;
  exn_str : string;
  exn_is_Exception : bool
}.

Definition NameError (name : string) : exn :=
  mk_exn "NameError" ("name '" ++ name ++ "' is not defined") true.

Definition TypeError (msg : string) : exn := mk_exn "TypeError" msg true.

Definition FileNotFoundError (path : string) : exn :=
  mk_exn "FileNotFoundError"
         ("[Errno 2] No such file or directory: '" ++ path ++ "'") true.

Inductive outcome (A : Type) : Type :=
| Return (a : A)
| Raise (e : exn).
Arguments Return {A} a.
Arguments Raise {A} e.

Definition ValueError (msg : string) : exn := mk_exn "ValueError" msg true.

Definition OverflowError (msg : string) : exn :=
  mk_exn "OverflowError" msg true.

(** *** Numbers that need not be finite *)

(** An [int] or a [float]: a finite value, [nan], or an infinity with its
    sign. *)
Inductive number : Type :=
| Finite (q : Q)
| NaN
| Infinity (negative : bool).

(** [x < y] for a finite [y]: false for [nan] and [inf], true for [-inf]. *)
Definition number_lt (x : number) (y : Q) : bool :=
  match x with
  | Finite q => lt q y
  | NaN => false
  | Infinity negative => negative
  end.

(** [int(x)]: raises on [nan] and on the infinities. *)
Definition number_int (x : number) : outcome Z :=
  match x with
  | Finite q => Return (int q)
  | NaN => Raise (ValueError "cannot convert float NaN to integer")
  | Infinity _ =>
      Raise (OverflowError "cannot convert float infinity to integer")
  end.

(** *** The world *)

(** What the program can observe or change outside its own variables: the
    wall clock and the files present. *)
Record world : Type := mk_world {
  wall_clock : Z;
  files : list string
}.

Definition M (A : Type) : Type := world -> outcome A * world.

Definition ret {A} (a : A) : M A := fun w => (Return a, w).

Definition raise {A} (e : exn) : M A := fun w => (Raise e, w).

Definition bind {A B} (m : M A) (k : A -> M B) : M B :=
  fun w => match m w with
           | (Return a, w') => k a w'
           | (Raise e, w') => (Raise e, w')
           end.

(** [try: m  except Exception as e: h e]. *)
Definition try_except {A} (m : M A) (h : exn -> M A) : M A :=
  fun w => match m w with
           | (Return a, w') => (Return a, w')
           | (Raise e, w') =>
               if exn_is_Exception e then h e w' else (Raise e, w')
           end.

(** *** The [time] module *)

(** The fields of [time.struct_time] that ['%H:%M:%S'] reads, and the day
    count the calendar fields derive from. *)
Record struct_time : Type := mk_struct_time {
  tm_days : Z;
  tm_hour : Z;
  tm_min : Z;
  tm_sec : Z
}.

(** [time.gmtime(secs)]; with no argument it reads the wall clock. *)
Definition gmtime (w : world) (secs : option Z) : struct_time :=
  let t := match secs with Some s => s | None => wall_clock w end in
  mk_struct_time (t / 86400) ((t / 3600) mod 24) ((t / 60) mod 60) (t mod 60).

(** A field printed by [%H], [%M] or [%S]: two digits, zero padded. *)
Definition two_digits (n : Z) : string :=
  if n <? 10 then "0" ++ str_of_int n else str_of_int n.

(** [time.strftime(fmt, t)] for formats made of [%H], [%M], [%S], [%%] and
    literal characters. *)
Fixpoint strftime (fmt : string) (t : struct_time) : string :=
  match fmt with
  | EmptyString => EmptyString
  | String "%" (String d rest as tail) =>
      match d with
      | "H"%char => two_digits (tm_hour t) ++ strftime rest t
      | "M"%char => two_digits (tm_min t) ++ strftime rest t
      | "S"%char => two_digits (tm_sec t) ++ strftime rest t
      | "%"%char => String "%" (strftime rest t)
      | _ => String "%" (strftime tail t)
      end
  | String c rest => String c (strftime rest t)
  end.

(** *** The [os] module *)

Fixpoint remove_path (p : string) (l : list string) : list string :=
  match l with
  | [] => []
  | q :: l' => if String.eqb p q then l' else q :: remove_path p l'
  end.

(** [os.remove(path)]. *)
Definition os_remove (path : string) : M unit :=
  fun w => if existsb (String.eqb path) (files w)
           then (Return tt, mk_world (wall_clock w) (remove_path path (files w)))
           else (Raise (FileNotFoundError path), w).

End Py.

Notation "x <- m ;; k" := (Py.bind m (fun x => k))
  (at level 61, m at next level, right associativity).

(* ================================================================= *)
(** ** Name resolution in [app.py]                                     *)
(* ================================================================= *)

Module Names.

(** What a name can be bound to, as far as the program tells values apart:
    a string, or anything else (a module, a function, a component). *)
Inductive object : Type :=
| Str (s : string)
| Other (descr : string).

(** The names bound at the top level of [app.py] once the module is loaded,
    in binding order, after the names every module has. *)
Definition module_globals : list (string * object) :=
  [ ("__name__", Str "__main__"); ("__doc__", Other "None");
    ("__package__", Other "None"); ("__loader__", Other "loader");
    ("__spec__", Other "None"); ("__builtins__", Other "module builtins");
    ("__file__", Str "app.py");
    ("gr", Other "module gradio"); ("ffmpeg", Other "module ffmpeg");
    ("pipeline", Other "function pipeline");
    ("tempfile", Other "module tempfile"); ("os", Other "module os");
    ("time", Other "module time"); ("transcriber", Other "pipeline object");
    ("extract_audio_from_video", Other "function");
    ("transcribe_audio", Other "function");
    ("generate_srt_from_video", Other "function");
    ("generate_srt", Other "function"); ("save_srt_file", Other "function");
    ("combine_inputs", Other "function"); ("demo", Other "gr.Blocks");
    ("video_input", Other "gr.Video"); ("file_input", Other "gr.File");
    ("transcribed_text", Other "gr.Textbox");
    ("caption_slider", Other "gr.Slider");
    ("generate_srt_button", Other "gr.Button");
    ("srt_output", Other "gr.File") ].

(** The names of the [builtins] module. *)
Definition builtin_names : list string :=
  [ "ArithmeticError"; "AssertionError"; "AttributeError"; "BaseException";
    "BaseExceptionGroup"; "BlockingIOError"; "BrokenPipeError"; "BufferError";
    "BytesWarning"; "ChildProcessError"; "ConnectionAbortedError";
    "ConnectionError"; "ConnectionRefusedError"; "ConnectionResetError";
    "DeprecationWarning"; "EOFError"; "Ellipsis"; "EncodingWarning";
    "EnvironmentError"; "Exception"; "ExceptionGroup"; "False";
    "FileExistsError"; "FileNotFoundError"; "FloatingPointError";
    "FutureWarning"; "GeneratorExit"; "IOError"; "ImportError";
    "ImportWarning"; "IndentationError"; "IndexError"; "InterruptedError";
    "IsADirectoryError"; "KeyError"; "KeyboardInterrupt"; "LookupError";
    "MemoryError"; "ModuleNotFoundError"; "NameError"; "None";
    "NotADirectoryError"; "NotImplemented"; "NotImplementedError"; "OSError";
    "OverflowError"; "PendingDeprecationWarning"; "PermissionError";
    "ProcessLookupError"; "RecursionError"; "ReferenceError";
    "ResourceWarning"; "RuntimeError"; "RuntimeWarning";
    "StopAsyncIteration"; "StopIteration"; "SyntaxError"; "SyntaxWarning";
    "SystemError"; "SystemExit"; "TabError"; "TimeoutError"; "True";
    "TypeError"; "UnboundLocalError"; "UnicodeDecodeError";
    "UnicodeEncodeError"; "UnicodeError"; "UnicodeTranslateError";
    "UnicodeWarning"; "UserWarning"; "ValueError"; "Warning";
    "ZeroDivisionError"; "__build_class__"; "__debug__"; "__doc__";
    "__import__"; "__loader__"; "__name__"; "__package__"; "__spec__";
    "abs"; "aiter"; "all"; "anext"; "any"; "ascii"; "bin"; "bool";
    "breakpoint"; "bytearray"; "bytes"; "callable"; "chr"; "classmethod";
    "compile"; "complex"; "copyright"; "credits"; "delattr"; "dict"; "dir";
    "divmod"; "enumerate"; "eval"; "exec"; "exit"; "filter"; "float";
    "format"; "frozenset"; "getattr"; "globals"; "hasattr"; "hash"; "help";
    "hex"; "id"; "input"; "int"; "isinstance"; "issubclass"; "iter"; "len";
    "license"; "list"; "locals"; "map"; "max"; "memoryview"; "min"; "next";
    "object"; "oct"; "open"; "ord"; "pow"; "print"; "property"; "quit";
    "range"; "repr"; "reversed"; "round"; "set"; "setattr"; "slice";
    "sorted"; "staticmethod"; "str"; "sum"; "super"; "tuple"; "type";
    "vars"; "zip" ].

(** The names that are local to [generate_srt]: its parameters and the
    targets of its assignments and of its [for].  Every other name in its
    body is looked up in the module and then in [builtins]. *)
Definition generate_srt_locals : list string :=
  [ "text"; "spacing"; "words"; "captions"; "current_caption";
    "current_time"; "caption_index"; "time_per_caption";
    "max_words_per_caption"; "word" ].

Fixpoint lookup (name : string) (env : list (string * object))
  : option object :=
  match env with
  | [] => None
  | (n, v) :: env' => if String.eqb name n then Some v else lookup name env'
  end.

Definition is_builtin (name : string) : bool :=
  existsb (String.eqb name) builtin_names.

(** Reading a name that is not local to the running function. *)
Definition load_global (name : string) : Py.M object :=
  match lookup name module_globals with
  | Some v => Py.ret v
  | None => if is_builtin name then Py.ret (Other ("builtin " ++ name))
            else Py.raise (Py.NameError name)
  end.

(** [os.remove(x)] on whatever [x] is bound to. *)
Definition os_remove (x : object) : Py.M unit :=
  match x with
  | Str path => Py.os_remove path
  | Other d =>
      Py.raise (Py.TypeError
        "remove: path should be string, bytes or os.PathLike")
  end.

End Names.

(* ================================================================= *)
(** ** The program                                                     *)
(* ================================================================= *)

Definition nl : string := String (ascii_of_nat 10) EmptyString.

(** Line 47 for a finite control:
    [time_per_caption = 3 if spacing < 3 else 5]. *)
Definition time_per_caption (spacing : Q) : Z :=
  if Py.lt spacing (3 # 1) then 3 else 5.

(** Line 48 for a finite control:
    [max_words_per_caption = 10 if spacing < 3 else 5]. *)
Definition max_words_per_caption (spacing : Q) : Z :=
  if Py.lt spacing (3 # 1) then 10 else 5.

(** Line 53 for a finite control: the bound the loop compares
    [len(current_caption)] with, [max(1, int(spacing))]. *)
Definition group_size (spacing : Q) : Z := Z.max 1 (Py.int spacing).

(** [time.strftime('%H:%M:%S', time.gmtime(t))]. *)
Definition hms (w : Py.world) (t : Z) : string :=
  Py.strftime "%H:%M:%S" (Py.gmtime w (Some t)).

(** The f-string of lines 54 and 60. *)
Definition caption_entry (w : Py.world) (caption_index current_time
    time_per_caption : Z) (current_caption : list string) : string :=
  Py.str_of_int caption_index ++ nl
  ++ hms w current_time ++ " --> " ++ hms w (current_time + time_per_caption)
  ++ nl ++ Py.join " " current_caption ++ nl.

(** The variables the loop of lines 50-57 updates. *)
Record loop_state : Type := mk_loop_state {
  captions : list string;
  current_caption : list string;
  current_time : Z;
  caption_index : Z
}.

(** Lines 41-44. *)
Definition initial_state : loop_state := mk_loop_state [] [] 0 1.

(** One iteration of the loop, lines 51-57, for a finite control (where
    [int(spacing)] is a value). *)
Definition loop_body (w : Py.world) (spacing : Q) (time_per_caption : Z)
    (st : loop_state) (word : string) : loop_state :=
  let current_caption := (current_caption st ++ [word])%list in
  if Z.of_nat (List.length current_caption) >=? group_size spacing
  then mk_loop_state
         (captions st ++ [caption_entry w (caption_index st) (current_time st)
                            time_per_caption current_caption])%list
         []
         (current_time st + time_per_caption)
         (caption_index st + 1)
  else mk_loop_state (captions st) current_caption (current_time st)
         (caption_index st).

(** Lines 59-60: the group left open by the loop is closed. *)
Definition flush (w : Py.world) (time_per_caption : Z) (st : loop_state)
  : list string :=
  match current_caption st with
  | [] => captions st
  | _ :: _ => (captions st ++ [caption_entry w (caption_index st)
                                 (current_time st) time_per_caption
                                 (current_caption st)])%list
  end.

(** Lines 41-60 on the word list, for a finite control: the value of
    [captions] when control reaches line 62. *)
Definition captions_of_words (w : Py.world) (words : list string)
    (spacing : Q) : list string :=
  let time_per_caption := time_per_caption spacing in
  let max_words_per_caption := max_words_per_caption spacing in
  flush w time_per_caption
    (fold_left (loop_body w spacing time_per_caption) words initial_state).

(** Lines 40-60 for a finite control: the value of [captions] when control
    reaches line 62 ([generate_srt_finite] below). *)
Definition captions_built (w : Py.world) (text : string) (spacing : Q)
  : list string :=
  captions_of_words w (Py.split text) spacing.

(** Line 65: the value of the [return] expression for a given [captions]. *)
Definition document (captions : list string) : string := Py.join nl captions.

(** One iteration of the loop, lines 51-57, for any control: the word is
    appended, then the test of line 53 evaluates [int(spacing)], which can
    raise. *)
Definition loop_step (w : Py.world) (spacing : Py.number)
    (time_per_caption : Z) (st : loop_state) (word : string)
  : Py.outcome loop_state :=
  let current_caption := (current_caption st ++ [word])%list in
  match Py.number_int spacing with
  | Py.Raise e => Py.Raise e
  | Py.Return k =>
      Py.Return
        (if Z.of_nat (List.length current_caption) >=? Z.max 1 k
         then mk_loop_state
                (captions st ++ [caption_entry w (caption_index st)
                                   (current_time st) time_per_caption
                                   current_caption])%list
                []
                (current_time st + time_per_caption)
                (caption_index st + 1)
         else mk_loop_state (captions st) current_caption (current_time st)
                (caption_index st))
  end.

(** The loop of lines 50-57: it stops at the first iteration that raises. *)
Fixpoint run_loop (w : Py.world) (spacing : Py.number) (time_per_caption : Z)
    (words : list string) (st : loop_state) : Py.outcome loop_state :=
  match words with
  | [] => Py.Return st
  | word :: words' =>
      match loop_step w spacing time_per_caption st word with
      | Py.Raise e => Py.Raise e
      | Py.Return st' => run_loop w spacing time_per_caption words' st'
      end
  end.

(** [generate_srt(text, spacing)], lines 38-65.  On line 63 the callee [os]
    is read, then the argument [audio_path], which is not a local name of
    this function. *)
Definition generate_srt (text : string) (spacing : Py.number)
  : Py.M string :=
  fun w =>
    let words := Py.split text in
    let time_per_caption := if Py.number_lt spacing (3 # 1) then 3 else 5 in
    let max_words_per_caption :=
      if Py.number_lt spacing (3 # 1) then 10 else 5 in
    match run_loop w spacing time_per_caption words initial_state with
    | Py.Raise e => (Py.Raise e, w)
    | Py.Return st =>
        let captions := flush w time_per_caption st in
        (_ <- Names.load_global "os" ;;
         audio_path <- Names.load_global "audio_path" ;;
         _ <- Names.os_remove audio_path ;;
         Py.ret (document captions)) w
    end.

Section Collaborators.

(** The speech recogniser: [transcriber(audio_path)["text"]]. *)
Variable transcriber : string -> Py.M string.

(** [ffmpeg.input(video).output(audio).run(overwrite_output=True)]. *)
Variable ffmpeg_run : string -> string -> Py.M unit.

(** Lines 11-18. *)
Definition extract_audio_from_video (video_path : string) : Py.M string :=
  let audio_path := Py.replace video_path ".mp4" "_audio.wav" in
  _ <- ffmpeg_run video_path audio_path ;;
  Py.ret audio_path.

(** Lines 20-26. *)
Definition transcribe_audio (audio_path : string) : Py.M string :=
  Py.try_except
    (transcription <- transcriber audio_path ;; Py.ret transcription)
    (fun e => Py.ret ("Error: " ++ Py.exn_str e)).

(** Lines 28-36. *)
Definition generate_srt_from_video (video_path : string)
    (spacing : Py.number) : Py.M string :=
  audio_path <- extract_audio_from_video video_path ;;
  transcription <- transcribe_audio audio_path ;;
  if Py.nonempty_str transcription
  then generate_srt transcription spacing
  else Py.ret "Error in transcription.".

End Collaborators.

(** A recogniser that fails on every input with the exception [e], and an
    extraction that succeeds and leaves the world as it is. *)
Definition failing_transcriber (e : Py.exn) : string -> Py.M string :=
  fun _ => Py.raise e.

Definition quiet_ffmpeg_run : string -> string -> Py.M unit :=
  fun _ _ => Py.ret tt.

Definition boom : Py.exn := Py.mk_exn "RuntimeError" "boom" true.

Definition noon : Py.world := Py.mk_world 1793793600 ["clip.mp4"].

(* ================================================================= *)
(** ** The caption blocks behind the rendered entries                  *)
(* ================================================================= *)

(** The loop of [generate_srt] keeps each caption only as rendered text.
    [blocks_of_words] is the same loop recording, for each entry it renders,
    the index, the two clock values and the words that went into it;
    [captions_refine_blocks] below shows that rendering these blocks gives
    back the program's [captions] list. *)

Record CaptionBlock : Type := mk_block {
  block_index : Z;
  block_start : Z;
  block_end : Z;
  block_words : list string
}.

Definition render (w : Py.world) (b : CaptionBlock) : string :=
  caption_entry w (block_index b) (block_start b)
    (block_end b - block_start b) (block_words b).

Record trace_state : Type := mk_trace_state {
  blocks : list CaptionBlock;
  open_group : list string;
  clock : Z;
  next_index : Z
}.

Definition initial_trace : trace_state := mk_trace_state [] [] 0 1.

Definition trace_body (spacing : Q) (time_per_caption : Z)
    (ts : trace_state) (word : string) : trace_state :=
  let group := (open_group ts ++ [word])%list in
  if Z.of_nat (List.length group) >=? group_size spacing
  then mk_trace_state
         (blocks ts ++ [mk_block (next_index ts) (clock ts)
                          (clock ts + time_per_caption) group])%list
         []
         (clock ts + time_per_caption)
         (next_index ts + 1)
  else mk_trace_state (blocks ts) group (clock ts) (next_index ts).

Definition trace_flush (time_per_caption : Z) (ts : trace_state)
  : list CaptionBlock :=
  match open_group ts with
  | [] => blocks ts
  | _ :: _ => (blocks ts ++ [mk_block (next_index ts) (clock ts)
                               (clock ts + time_per_caption)
                               (open_group ts)])%list
  end.

Definition blocks_of_words (words : list string) (spacing : Q)
  : list CaptionBlock :=
  trace_flush (time_per_caption spacing)
    (fold_left (trace_body spacing (time_per_caption spacing)) words
       initial_trace).

Definition blocks_built (text : string) (spacing : Q) : list CaptionBlock :=
  blocks_of_words (Py.split text) spacing.

(** The state of the program's loop and the state of the recording loop
    agree. *)
Definition agree (w : Py.world) (st : loop_state) (ts : trace_state) : Prop :=
  captions st = map (render w) (blocks ts)
  /\ current_caption st = open_group ts
  /\ current_time st = clock ts
  /\ caption_index st = next_index ts.

(** Block number [i] (from 0) carries index [i + 1] and the interval that
    starts after [i] captions of the fixed duration. *)
Definition timed_block (spacing : Q) (i : nat) (b : CaptionBlock) : Prop :=
  block_index b = Z.of_nat i + 1
  /\ block_start b = Z.of_nat i * time_per_caption spacing
  /\ block_end b = block_start b + time_per_caption spacing.

Definition block_size (b : CaptionBlock) : Z :=
  Z.of_nat (List.length (block_words b)).

(** What holds of the recording loop after it has read the words [seen]. *)
Record trace_inv (spacing : Q) (ts : trace_state) (seen : list string)
  : Prop := mk_trace_inv {
  inv_blocks : forall i b, nth_error (blocks ts) i = Some b ->
               timed_block spacing i b /\ block_size b = group_size spacing;
  inv_clock : clock ts
              = Z.of_nat (List.length (blocks ts)) * time_per_caption spacing;
  inv_index : next_index ts = Z.of_nat (List.length (blocks ts)) + 1;
  inv_open : Z.of_nat (List.length (open_group ts)) < group_size spacing;
  inv_seen : (List.concat (map block_words (blocks ts)) ++ open_group ts)%list
             = seen
}.

(* ================================================================= *)
(** ** The remaining functions and the vocabulary of their properties  *)
(* ================================================================= *)

(** A Python value that is [None] or a [str] is an [option string];
    [truthy] is its truth value in an [if]. *)
Definition truthy (v : option string) : bool :=
  match v with
  | Some s => Py.nonempty_str s
  | None => false
  end.

(** Lines 74-81. *)
Definition combine_inputs (recorded_video uploaded_file : option string)
  : option string :=
  if truthy recorded_video then recorded_video
  else if truthy uploaded_file then uploaded_file
  else None.

(** [old in s]: some suffix of [s] starts with [old]. *)
Fixpoint str_contains (old s : string) : bool :=
  String.prefix old s
  || match s with
     | EmptyString => false
     | String _ s' => str_contains old s'
     end.

(** No occurrence of [old] in [stem ++ rest] starts inside [stem]. *)
Fixpoint no_match_within (old stem rest : string) : bool :=
  match stem with
  | EmptyString => true
  | String _ stem' =>
      negb (String.prefix old (stem ++ rest))
      && no_match_within old stem' rest
  end.

(** Some character of [s] is whitespace. *)
Fixpoint has_space (s : string) : bool :=
  match s with
  | EmptyString => false
  | String c s' => Py.isspace c || has_space s'
  end.

(** A word: not empty and free of whitespace. *)
Definition is_token (s : string) : bool :=
  Py.nonempty_str s && negb (has_space s).

(** A decimal digit. *)
Definition is_digit (c : ascii) : bool :=
  ((48 <=? nat_of_ascii c) && (nat_of_ascii c <=? 57))%nat.

(** The text has the shape [DD:DD:DD], each [D] a decimal digit. *)
Definition is_hms (s : string) : bool :=
  match s with
  | String h1 (String h2 (String c1 (String m1 (String m2 (String c2
      (String s1 (String s2 EmptyString))))))) =>
      is_digit h1 && is_digit h2 && Ascii.eqb c1 ":" && is_digit m1
      && is_digit m2 && Ascii.eqb c2 ":" && is_digit s1 && is_digit s2
  | _ => false
  end.

(** The number of captions for [len] words in groups of [n]: [len / n]
    rounded up. *)
Definition caption_count (len n : Z) : Z := (len + n - 1) / n.

(** A recogniser that returns the text [t] on every input. *)
Definition returning_transcriber (t : string) : string -> Py.M string :=
  fun _ => Py.ret t.

(** An extraction that fails with the exception [e]. *)
Definition failing_ffmpeg_run (e : Py.exn) : string -> string -> Py.M unit :=
  fun _ _ => Py.raise e.

Definition interrupt : Py.exn := Py.mk_exn "KeyboardInterrupt" "" false.

(* ================================================================= *)
(** ** Refinement: the recorded blocks render to [captions]            *)
(* ================================================================= *)

Lemma render_mk_block (w : Py.world) (i t d : Z) (g : list string) :
  render w (mk_block i t (t + d) g) = caption_entry w i t d g.
Proof.
  unfold render; cbn [block_index block_start block_end block_words].
  now replace (t + d - t) with d by lia.
Qed.

Lemma agree_initial (w : Py.world) : agree w initial_state initial_trace.
Proof. repeat split. Qed.

Lemma agree_body (w : Py.world) (spacing : Q) (d : Z) st ts word :
  agree w st ts ->
  agree w (loop_body w spacing d st word) (trace_body spacing d ts word).
Proof.
  intros (Hc & Hg & Ht & Hi).
  unfold loop_body, trace_body. rewrite Hg.
  destruct (Z.of_nat (List.length (open_group ts ++ [word])%list)
            >=? group_size spacing); unfold agree; cbn.
  - rewrite map_app, Hc, Ht, Hi. cbn [map]. rewrite render_mk_block.
    repeat split; reflexivity.
  - repeat split; assumption.
Qed.

Lemma agree_fold (w : Py.world) (spacing : Q) (d : Z) words :
  forall st ts, agree w st ts ->
  agree w (fold_left (loop_body w spacing d) words st)
          (fold_left (trace_body spacing d) words ts).
Proof.
  induction words as [|x words IH]; intros st ts H; cbn [fold_left].
  - exact H.
  - apply IH, agree_body, H.
Qed.

Lemma agree_flush (w : Py.world) (d : Z) st ts :
  agree w st ts -> flush w d st = map (render w) (trace_flush d ts).
Proof.
  intros (Hc & Hg & Ht & Hi). unfold flush, trace_flush.
  rewrite Hg. destruct (open_group ts) as [|x g]; [exact Hc|].
  rewrite map_app, Hc, Ht, Hi. cbn [map]. now rewrite render_mk_block.
Qed.

Lemma captions_refine_blocks (w : Py.world) words spacing :
  captions_of_words w words spacing
  = map (render w) (blocks_of_words words spacing).
Proof.
  unfold captions_of_words, blocks_of_words.
  apply agree_flush, agree_fold, agree_initial.
Qed.

(* ================================================================= *)
(** ** The loop invariant                                              *)
(* ================================================================= *)

(** Turns the outcome [E] of a [>=?] test into an inequality. *)
Ltac geb_prop E :=
  rewrite Z.geb_leb in E;
  first [apply Z.leb_le in E | apply Z.leb_gt in E].

Lemma group_size_pos (spacing : Q) : 1 <= group_size spacing.
Proof. unfold group_size. lia. Qed.

Lemma time_per_caption_cases (spacing : Q) :
  time_per_caption spacing = 3 \/ time_per_caption spacing = 5.
Proof. unfold time_per_caption. destruct (Py.lt spacing (3 # 1)); auto. Qed.

Lemma time_per_caption_pos (spacing : Q) : 0 < time_per_caption spacing.
Proof. destruct (time_per_caption_cases spacing); lia. Qed.

(** What [nth_error] sees in a list extended by one element. *)
Lemma nth_error_snoc {A} (l : list A) (x : A) (i : nat) (y : A) :
  nth_error (l ++ [x])%list i = Some y ->
  nth_error l i = Some y \/ (i = List.length l /\ y = x).
Proof.
  intros H. destruct (Nat.lt_ge_cases i (List.length l)) as [Hlt|Hge].
  - left. now rewrite nth_error_app1 in H.
  - right. rewrite nth_error_app2 in H by exact Hge.
    destruct (i - List.length l)%nat as [|k] eqn:E; cbn in H.
    + split; [lia | congruence].
    + destruct k; discriminate.
Qed.

Lemma trace_inv_initial (spacing : Q) : trace_inv spacing initial_trace [].
Proof.
  constructor; cbn; try reflexivity.
  - intros [|i] b H; discriminate.
  - pose proof (group_size_pos spacing). lia.
Qed.

Lemma trace_inv_body (spacing : Q) ts seen word :
  trace_inv spacing ts seen ->
  trace_inv spacing (trace_body spacing (time_per_caption spacing) ts word)
            (seen ++ [word])%list.
Proof.
  intros [Hb Hc Hi Ho Hs]. unfold trace_body.
  destruct (Z.of_nat (List.length (open_group ts ++ [word])%list)
            >=? group_size spacing) eqn:E; geb_prop E; constructor; cbn.
  - intros i b H. apply nth_error_snoc in H as [H|[-> ->]]; [now apply Hb|].
    unfold timed_block, block_size; cbn.
    rewrite Hc, Hi. repeat split.
    rewrite length_app in *; cbn [List.length] in *. lia.
  - rewrite length_app; cbn [List.length]. rewrite Hc. lia.
  - rewrite length_app; cbn [List.length]. rewrite Hi. lia.
  - pose proof (group_size_pos spacing). lia.
  - rewrite map_app, concat_app; cbn. rewrite !app_nil_r, <- Hs.
    now rewrite app_assoc.
  - exact Hb.
  - exact Hc.
  - exact Hi.
  - rewrite length_app in *; cbn [List.length] in *. lia.
  - now rewrite <- Hs, app_assoc.
Qed.

Lemma trace_inv_fold (spacing : Q) words :
  forall ts seen, trace_inv spacing ts seen ->
  trace_inv spacing
    (fold_left (trace_body spacing (time_per_caption spacing)) words ts)
    (seen ++ words)%list.
Proof.
  induction words as [|x words IH]; intros ts seen H; cbn [fold_left].
  - now rewrite app_nil_r.
  - replace (seen ++ x :: words)%list with ((seen ++ [x]) ++ words)%list
      by now rewrite <- app_assoc.
    apply IH, trace_inv_body, H.
Qed.

Lemma trace_inv_final (spacing : Q) words :
  trace_inv spacing
    (fold_left (trace_body spacing (time_per_caption spacing)) words
       initial_trace) words.
Proof. apply (trace_inv_fold spacing words _ []), trace_inv_initial. Qed.

(** Every block of the finished list: its index and interval, its size, and
    the exact size when another block follows. *)
Lemma blocks_of_words_nth (words : list string) (spacing : Q) i b :
  nth_error (blocks_of_words words spacing) i = Some b ->
  timed_block spacing i b
  /\ 1 <= block_size b <= group_size spacing
  /\ (S i < List.length (blocks_of_words words spacing)
      -> block_size b = group_size spacing)%nat.
Proof.
  unfold blocks_of_words, trace_flush.
  destruct (trace_inv_final spacing words) as [Hb Hc Hi Ho Hs].
  pose proof (group_size_pos spacing) as Hg.
  destruct (open_group _) as [|x g] eqn:E.
  - intros H. destruct (Hb i b H) as [Ht Hn]. repeat split; try apply Ht; lia.
  - intros H. apply nth_error_snoc in H as [H|[-> ->]].
    + destruct (Hb i b H) as [Ht Hn]. repeat split; try apply Ht; lia.
    + unfold timed_block, block_size; cbn [block_index block_start block_end
        block_words]. rewrite Hc, Hi.
      rewrite length_app. cbn [List.length] in *. repeat split; lia.
Qed.

Lemma blocks_of_words_concat (words : list string) (spacing : Q) :
  List.concat (map block_words (blocks_of_words words spacing)) = words.
Proof.
  unfold blocks_of_words, trace_flush.
  destruct (trace_inv_final spacing words) as [_ _ _ _ Hs].
  destruct (open_group _) as [|x g] eqn:E.
  - now rewrite app_nil_r in Hs.
  - rewrite map_app, concat_app; cbn. now rewrite app_nil_r.
Qed.

Lemma blocks_of_words_nonempty (words : list string) (spacing : Q) :
  words <> [] -> blocks_of_words words spacing <> [].
Proof.
  intros Hw Hb. apply Hw.
  rewrite <- (blocks_of_words_concat words spacing), Hb. reflexivity.
Qed.

(** A property of every element by position gives the mapped list. *)
Lemma map_by_position {A B} (f : A -> B) (g : nat -> B) (l : list A) :
  (forall i a, nth_error l i = Some a -> f a = g i) ->
  map f l = map g (seq 0 (List.length l)).
Proof.
  induction l as [|x l IH] using rev_ind; intros H; [reflexivity|].
  rewrite length_app, Nat.add_comm; cbn [List.length Nat.add].
  rewrite seq_S, !map_app; cbn [map Nat.add]. f_equal.
  - apply IH. intros i a Hi. apply H.
    rewrite nth_error_app1; [exact Hi|]. apply nth_error_Some. congruence.
  - f_equal. apply H. rewrite nth_error_app2 by lia.
    now rewrite Nat.sub_diag.
Qed.

(** A list of one-element lists is determined by its concatenation. *)
Lemma singletons_of_concat {A} (l : list (list A)) :
  (forall x, In x l -> List.length x = 1%nat) ->
  l = map (fun a => [a]) (List.concat l).
Proof.
  induction l as [|x l IH]; intros H; [reflexivity|].
  assert (Hx : List.length x = 1%nat) by (apply H; now left).
  destruct x as [|a [|b x]]; try discriminate. cbn. f_equal.
  apply IH. intros y Hy. apply H. now right.
Qed.

(* ================================================================= *)
(** ** Facts about the primitives                                      *)
(* ================================================================= *)

Lemma lt_spec (x y : Q) : Py.lt x y = true <-> (x < y)%Q.
Proof.
  unfold Py.lt. rewrite Qlt_alt.
  destruct (x ?= y)%Q; split; congruence.
Qed.

Lemma lt_false_spec (x y : Q) : Py.lt x y = false <-> (y <= x)%Q.
Proof.
  rewrite <- Bool.not_true_iff_false, lt_spec. split.
  - apply Qnot_lt_le.
  - apply Qle_not_lt.
Qed.

Lemma lt_compat (x x' y : Q) : (x == x')%Q -> Py.lt x y = Py.lt x' y.
Proof. intros H. unfold Py.lt. now rewrite H. Qed.

Lemma int_compat (x x' : Q) : (x == x')%Q -> Py.int x = Py.int x'.
Proof.
  intros H. unfold Py.int.
  rewrite (Qleb_comp 0%Q 0%Q (Qeq_refl 0%Q) x x' H).
  now rewrite (Qfloor_comp x x' H), (Qceiling_comp x x' H).
Qed.

Lemma int_inject_Z (z : Z) : Py.int (inject_Z z) = z.
Proof.
  unfold Py.int. destruct (Qle_bool 0 (inject_Z z)).
  - apply Qfloor_Z.
  - apply Qceiling_Z.
Qed.

Lemma round_inject_Z (z : Z) : Py.round (inject_Z z) = z.
Proof.
  unfold Py.round. cbv zeta. rewrite Qfloor_Z.
  assert (H : (inject_Z z - inject_Z z < 1 # 2)%Q).
  { setoid_replace (inject_Z z - inject_Z z)%Q with 0%Q by ring. reflexivity. }
  apply Qlt_alt in H. unfold Qcompare in *. now rewrite H.
Qed.

(** [int] rounds toward zero: the result lies between zero and the
    argument, less than one away from it. *)
Lemma int_truncates (x : Q) :
  ((0 <= x -> inject_Z (Py.int x) <= x < inject_Z (Py.int x) + 1)
   /\ (x < 0 -> x <= inject_Z (Py.int x) < x + 1))%Q.
Proof.
  unfold Py.int. split; intros H.
  - apply Qle_bool_iff in H. rewrite H. split.
    + apply Qfloor_le.
    + change (x < inject_Z (Qfloor x) + inject_Z 1)%Q.
      rewrite <- inject_Z_plus. apply Qlt_floor.
  - assert (E : Qle_bool 0 x = false).
    { apply Bool.not_true_iff_false. rewrite Qle_bool_iff.
      now apply Qlt_not_le. }
    rewrite E. split.
    + apply Qle_ceiling.
    + pose proof (Qceiling_lt x) as L. unfold Z.sub in L.
      rewrite inject_Z_plus, inject_Z_opp in L.
      apply Qplus_lt_l with (z := (- inject_Z 1)%Q).
      setoid_replace (x + 1 + - inject_Z 1)%Q with x by ring. exact L.
Qed.

Lemma split_all_space (text : string) :
  Py.all_space text = true -> Py.split text = [].
Proof.
  unfold Py.split. induction text as [|c text IH]; cbn; [reflexivity|].
  intros H. apply andb_prop in H as [Hc Ht]. rewrite Hc. cbn. now apply IH.
Qed.

Lemma nonempty_str_app_r (a : string) (c : ascii) (b : string) :
  Py.nonempty_str (a ++ String c b) = true.
Proof. destruct a; reflexivity. Qed.

Lemma split_from_nonempty (s : string) :
  forall cur, Py.nonempty_str cur = true -> Py.split_from cur s <> [].
Proof.
  induction s as [|c s IH]; intros cur H; cbn.
  - rewrite H. discriminate.
  - destruct (Py.isspace c).
    + rewrite H. discriminate.
    + apply IH, nonempty_str_app_r.
Qed.

Lemma split_nil_all_space (text : string) :
  Py.split text = [] -> Py.all_space text = true.
Proof.
  unfold Py.split. induction text as [|c text IH]; cbn; [reflexivity|].
  destruct (Py.isspace c) eqn:E; cbn.
  - exact IH.
  - intros H. exfalso. revert H. now apply split_from_nonempty.
Qed.

(** The rendered clock values do not read the world. *)
Lemma render_world (w1 w2 : Py.world) (b : CaptionBlock) :
  render w1 b = render w2 b.
Proof. reflexivity. Qed.

Lemma captions_of_words_world (w1 w2 : Py.world) words spacing :
  captions_of_words w1 words spacing = captions_of_words w2 words spacing.
Proof.
  rewrite !captions_refine_blocks. apply map_ext, render_world.
Qed.

(** For a finite control no iteration raises, and the loop is the fold of
    [loop_body]. *)
Lemma loop_step_finite (w : Py.world) (q : Q) (d : Z) st word :
  loop_step w (Py.Finite q) d st word = Py.Return (loop_body w q d st word).
Proof. reflexivity. Qed.

Lemma run_loop_finite (w : Py.world) (q : Q) (d : Z) words :
  forall st, run_loop w (Py.Finite q) d words st
             = Py.Return (fold_left (loop_body w q d) words st).
Proof.
  induction words as [|x words IH]; intros st; cbn [run_loop fold_left].
  - reflexivity.
  - rewrite loop_step_finite. apply IH.
Qed.

(** When [int(spacing)] raises, so does the first iteration. *)
Lemma run_loop_raises (w : Py.world) (spacing : Py.number) (e : Py.exn)
    (d : Z) word words st :
  Py.number_int spacing = Py.Raise e ->
  run_loop w spacing d (word :: words) st = Py.Raise e.
Proof. intros H. cbn [run_loop]. unfold loop_step. now rewrite H. Qed.

(** For a finite control [generate_srt] reaches line 62 with the list
    [captions_built], and line 65 would return its document. *)
Lemma generate_srt_finite (text : string) (q : Q) (w : Py.world) :
  generate_srt text (Py.Finite q) w
  = (_ <- Names.load_global "os" ;;
     audio_path <- Names.load_global "audio_path" ;;
     _ <- Names.os_remove audio_path ;;
     Py.ret (document (captions_built w text q))) w.
Proof.
  unfold generate_srt. cbv zeta. rewrite run_loop_finite. reflexivity.
Qed.

(** Line 63 raises before anything is removed or returned. *)
Lemma generate_srt_outcome (text : string) (spacing : Q) (w : Py.world) :
  generate_srt text (Py.Finite spacing) w
  = (Py.Raise (Py.NameError "audio_path"), w).
Proof. rewrite generate_srt_finite. reflexivity. Qed.

(** No call returns, and none changes the world. *)
Lemma generate_srt_raises (text : string) (spacing : Py.number)
    (w : Py.world) :
  exists e, generate_srt text spacing w = (Py.Raise e, w).
Proof.
  unfold generate_srt. cbv zeta.
  destruct (run_loop w spacing _ (Py.split text) initial_state) as [st|e].
  - now exists (Py.NameError "audio_path").
  - now exists e.
Qed.

(** With no word to read, line 53 is not run. *)
Lemma generate_srt_blank (text : string) (spacing : Py.number)
    (w : Py.world) :
  Py.all_space text = true ->
  generate_srt text spacing w = (Py.Raise (Py.NameError "audio_path"), w).
Proof.
  intros H. unfold generate_srt. cbv zeta.
  now rewrite (split_all_space text H).
Qed.

Lemma group_size_inject_Z (n : Z) : 1 <= n -> group_size (inject_Z n) = n.
Proof. intros H. unfold group_size. rewrite int_inject_Z. lia. Qed.

(* ================================================================= *)
(** ** Segmentation                                                    *)
(* ================================================================= *)

(** C1.  For every token sequence and every spacing control (the threshold
    [group_size spacing] is then at least 1, and every threshold of at least
    1 arises, see [group_size_inject_Z]), the caption groups the loop of
    [generate_srt] closes, taken in order and concatenated, are the original
    token sequence: no token is dropped, duplicated or reordered.  The groups
    are those of the entries in the program's [captions] list. *)
Theorem C1_groups_concat_to_tokens (w : Py.world) (words : list string)
    (spacing : Q) :
  let bs := blocks_of_words words spacing in
  captions_of_words w words spacing = map (render w) bs
  /\ 1 <= group_size spacing
  /\ List.concat (map block_words bs) = words.
Proof.
  cbv zeta. split; [apply captions_refine_blocks|].
  split; [apply group_size_pos | apply blocks_of_words_concat].
Qed.

(** C2, on the code.  For the text "one two three four five" and spacing
    control 2 the loop of [generate_srt] builds exactly the three entries
    numbered 1, 2, 3, with the intervals 00:00:00 --> 00:00:03,
    00:00:03 --> 00:00:06, 00:00:06 --> 00:00:09 and the texts "one two",
    "three four", "five"; but the call does not produce them: it raises
    [NameError] on line 63 and returns nothing. *)
Theorem C2_five_words_call_raises (w : Py.world) :
  Py.split "one two three four five"
  = ["one"; "two"; "three"; "four"; "five"]
  /\ blocks_built "one two three four five" (2 # 1)
     = [ mk_block 1 0 3 ["one"; "two"];
         mk_block 2 3 6 ["three"; "four"];
         mk_block 3 6 9 ["five"] ]
  /\ captions_built w "one two three four five" (2 # 1)
     = [ "1" ++ nl ++ "00:00:00 --> 00:00:03" ++ nl ++ "one two" ++ nl;
         "2" ++ nl ++ "00:00:03 --> 00:00:06" ++ nl ++ "three four" ++ nl;
         "3" ++ nl ++ "00:00:06 --> 00:00:09" ++ nl ++ "five" ++ nl ]
  /\ generate_srt "one two three four five" (Py.Finite (2 # 1)) w
     = (Py.Raise (Py.NameError "audio_path"), w).
Proof. repeat split. Qed.

(** C4.  For every token sequence and every spacing control, with
    [n = group_size spacing >= 1]: every caption group that is followed by
    another one has exactly [n] tokens, every group (so also the last) has
    between 1 and [n] tokens, and a non-empty token sequence gives at least
    one group. *)
Theorem C4_group_sizes (w : Py.world) (words : list string) (spacing : Q) :
  let bs := blocks_of_words words spacing in
  let n := group_size spacing in
  captions_of_words w words spacing = map (render w) bs
  /\ 1 <= n
  /\ (forall i b, nth_error bs i = Some b ->
        1 <= block_size b <= n
        /\ ((S i < List.length bs)%nat -> block_size b = n))
  /\ (words <> [] -> bs <> []).
Proof.
  cbv zeta. split; [apply captions_refine_blocks|].
  split; [apply group_size_pos|]. split.
  - intros i b H. now destruct (blocks_of_words_nth words spacing i b H)
      as (_ & Hs & Hf).
  - apply blocks_of_words_nonempty.
Qed.

Lemma C4_group_sizes_witness :
  block_size (mk_block 1 0 3 ["a"; "b"]) = 2
  /\ 1 <= block_size (mk_block 2 3 6 ["c"]) <= 2.
Proof.
  pose proof (C4_group_sizes noon ["a"; "b"; "c"] (2 # 1)) as H.
  cbv zeta in H. destruct H as (_ & _ & H & _). split.
  - apply (H 0%nat (mk_block 1 0 3 ["a"; "b"])); [reflexivity | cbn; lia].
  - apply (H 1%nat (mk_block 2 3 6 ["c"])). reflexivity.
Defined.

(* ================================================================= *)
(** ** Timeline                                                        *)
(* ================================================================= *)

(** C5.  For every list of captions the loop builds: the indices are
    1, 2, ..., n in order; the first interval starts at clock 0; every
    interval, that of a short last group included, has the fixed length
    [time_per_caption spacing], which is positive; and each interval ends
    where the next one starts. *)
Theorem C5_contiguous_timeline (w : Py.world) (words : list string)
    (spacing : Q) :
  let bs := blocks_of_words words spacing in
  let d := time_per_caption spacing in
  captions_of_words w words spacing = map (render w) bs
  /\ 0 < d
  /\ map block_index bs
     = map (fun i => Z.of_nat i + 1) (seq 0 (List.length bs))
  /\ (forall b, nth_error bs 0 = Some b -> block_start b = 0)
  /\ (forall i b, nth_error bs i = Some b -> block_end b - block_start b = d)
  /\ (forall i b b', nth_error bs i = Some b -> nth_error bs (S i) = Some b' ->
        block_end b = block_start b').
Proof.
  cbv zeta. split; [apply captions_refine_blocks|].
  split; [apply time_per_caption_pos|]. repeat split.
  - apply map_by_position. intros i b H.
    now destruct (blocks_of_words_nth words spacing i b H) as ((Hi & _) & _).
  - intros b H.
    destruct (blocks_of_words_nth words spacing 0 b H) as ((_ & Hs & _) & _).
    rewrite Hs. reflexivity.
  - intros i b H.
    destruct (blocks_of_words_nth words spacing i b H) as ((_ & _ & He) & _).
    lia.
  - intros i b b' H H'.
    destruct (blocks_of_words_nth words spacing i b H) as ((_ & Hs & He) & _).
    destruct (blocks_of_words_nth words spacing (S i) b' H')
      as ((_ & Hs' & _) & _).
    rewrite He, Hs, Hs'. lia.
Qed.

Lemma C5_contiguous_timeline_witness :
  block_start (mk_block 1 0 5 ["a"; "b"; "c"]) = 0
  /\ block_end (mk_block 1 0 5 ["a"; "b"; "c"])
     = block_start (mk_block 2 5 10 ["d"]).
Proof.
  pose proof (C5_contiguous_timeline noon ["a"; "b"; "c"; "d"] (3 # 1)) as H.
  cbv zeta in H. destruct H as (_ & _ & _ & H0 & _ & H). split.
  - apply H0. reflexivity.
  - apply (H 0%nat); reflexivity.
Defined.

(** C8.  Generation does not depend on when it runs.  In any two states of
    the world (wall clock, files) a call of [generate_srt] with the same
    text and spacing has the same outcome, builds the same [captions] list
    and so the same document text; and the two clock values of every entry
    are its index times the fixed duration, less one duration for the
    start. *)
Theorem C8_same_inputs_same_output (text : string) (spacing : Q)
    (w1 w2 : Py.world) :
  let d := time_per_caption spacing in
  fst (generate_srt text (Py.Finite spacing) w1)
  = fst (generate_srt text (Py.Finite spacing) w2)
  /\ captions_built w1 text spacing = captions_built w2 text spacing
  /\ document (captions_built w1 text spacing)
     = document (captions_built w2 text spacing)
  /\ captions_built w1 text spacing
     = map (render w1) (blocks_built text spacing)
  /\ (forall i b, nth_error (blocks_built text spacing) i = Some b ->
        block_start b = (block_index b - 1) * d
        /\ block_end b = block_index b * d).
Proof.
  cbv zeta. unfold captions_built, blocks_built.
  split; [now rewrite !generate_srt_outcome|].
  split; [apply captions_of_words_world|].
  split; [f_equal; apply captions_of_words_world|].
  split; [apply captions_refine_blocks|].
  intros i b H.
  destruct (blocks_of_words_nth _ spacing i b H) as ((Hi & Hs & He) & _).
  rewrite He, Hs, Hi. split; ring.
Qed.

Lemma C8_same_inputs_same_output_witness :
  block_start (mk_block 2 3 6 ["c"]) = (block_index (mk_block 2 3 6 ["c"]) - 1) * 3
  /\ block_end (mk_block 2 3 6 ["c"]) = block_index (mk_block 2 3 6 ["c"]) * 3.
Proof.
  pose proof (C8_same_inputs_same_output "a b c" (2 # 1) noon
                (Py.mk_world 0 [])) as H.
  cbv zeta in H. destruct H as (_ & _ & _ & _ & H).
  apply (H 1%nat (mk_block 2 3 6 ["c"])). reflexivity.
Defined.

(* ================================================================= *)
(** ** Spacing policy                                                  *)
(* ================================================================= *)

(** C3 fails as stated: at the control value 2.75 the loop closes a group
    at 2 words, while [max(1, round(2.75))] is 3. *)
Lemma C3_round_is_not_the_threshold :
  group_size (11 # 4) = 2
  /\ Z.max 1 (Py.round (11 # 4)) = 3
  /\ group_size (11 # 4) <> Z.max 1 (Py.round (11 # 4)).
Proof. repeat split. discriminate. Qed.

(** C3, amended.  For every spacing control the threshold at which the loop
    closes a group is [max(1, int(control))], where [int] truncates toward
    zero; it is the size of every group that is followed by another one; it
    is at least 1; on integer controls it is also [max(1, round(control))];
    and for control 0 every caption holds exactly one token. *)
Theorem C3_threshold_truncates (spacing : Q) :
  group_size spacing = Z.max 1 (Py.int spacing)
  /\ ((0 <= spacing ->
       inject_Z (Py.int spacing) <= spacing < inject_Z (Py.int spacing) + 1)
      /\ (spacing < 0 ->
          spacing <= inject_Z (Py.int spacing) < spacing + 1))%Q
  /\ 1 <= group_size spacing
  /\ (forall z : Z, group_size (inject_Z z) = Z.max 1 (Py.round (inject_Z z)))
  /\ (forall words i b,
        nth_error (blocks_of_words words spacing) i = Some b ->
        (S i < List.length (blocks_of_words words spacing))%nat ->
        block_size b = Z.max 1 (Py.int spacing))
  /\ (forall w words,
        captions_of_words w words 0 = map (render w) (blocks_of_words words 0)
        /\ map block_words (blocks_of_words words 0)
           = map (fun x => [x]) words).
Proof.
  split; [reflexivity|]. split; [apply int_truncates|].
  split; [apply group_size_pos|]. split; [|split].
  - intros z. unfold group_size. now rewrite int_inject_Z, round_inject_Z.
  - intros words i b H Hl.
    destruct (blocks_of_words_nth words spacing i b H) as (_ & _ & Hf).
    now apply Hf.
  - intros w words. split; [apply captions_refine_blocks|].
    rewrite <- (blocks_of_words_concat words 0) at 2.
    apply singletons_of_concat. intros x Hx.
    apply in_map_iff in Hx as (b & <- & Hb).
    apply In_nth_error in Hb as (i & Hi).
    destruct (blocks_of_words_nth words 0 i b Hi) as (_ & Hs & _).
    unfold block_size in Hs. change (group_size 0) with 1 in Hs. lia.
Qed.

Lemma C3_threshold_truncates_witness :
  (inject_Z (Py.int (11 # 4)) <= 11 # 4 < inject_Z (Py.int (11 # 4)) + 1)%Q
  /\ block_size (mk_block 1 0 3 ["a"; "b"]) = Z.max 1 (Py.int (11 # 4)).
Proof.
  pose proof (C3_threshold_truncates (11 # 4)) as (_ & (H & _) & _ & _ & G & _).
  split.
  - apply H. discriminate.
  - apply (G ["a"; "b"; "c"] 0%nat); [reflexivity | cbn; lia].
Defined.

(** C6.  The two derived parameters are a function of the control value
    alone: below 3 they are 10 words and 3 seconds, from 3 on they are
    5 words and 5 seconds, whatever fraction denotes the value. *)
Theorem C6_policy_table (spacing : Q) :
  ((spacing < 3)%Q ->
     max_words_per_caption spacing = 10 /\ time_per_caption spacing = 3)
  /\ ((3 <= spacing)%Q ->
        max_words_per_caption spacing = 5 /\ time_per_caption spacing = 5)
  /\ (forall spacing', (spacing == spacing')%Q ->
        max_words_per_caption spacing = max_words_per_caption spacing'
        /\ time_per_caption spacing = time_per_caption spacing').
Proof.
  unfold max_words_per_caption, time_per_caption. repeat split.
  - apply lt_spec in H. now rewrite H.
  - apply lt_spec in H. now rewrite H.
  - apply lt_false_spec in H. now rewrite H.
  - apply lt_false_spec in H. now rewrite H.
  - now rewrite (lt_compat spacing spacing' _ H).
  - now rewrite (lt_compat spacing spacing' _ H).
Qed.

Lemma C6_policy_table_witness :
  (max_words_per_caption (2 # 1) = 10 /\ time_per_caption (2 # 1) = 3)
  /\ (max_words_per_caption (4 # 1) = 5 /\ time_per_caption (4 # 1) = 5)
  /\ (max_words_per_caption (5 # 2) = max_words_per_caption (10 # 4)
      /\ time_per_caption (5 # 2) = time_per_caption (10 # 4)).
Proof.
  split; [|split].
  - apply (C6_policy_table (2 # 1)). reflexivity.
  - apply (C6_policy_table (4 # 1)). discriminate.
  - apply (C6_policy_table (5 # 2)). reflexivity.
Defined.

(* ================================================================= *)
(** ** Outcomes of a call                                              *)
(* ================================================================= *)

(** C10 fails as stated: with the spacing value [nan] and a text that has
    a word, line 53 raises [ValueError] at the first word, so the call does
    not reach line 63 and the exception is not a [NameError]; with an
    infinity it is [OverflowError]. *)
Lemma C10_nan_raises_ValueError :
  generate_srt "a" Py.NaN noon
  = (Py.Raise (Py.ValueError "cannot convert float NaN to integer"), noon)
  /\ generate_srt "a" (Py.Infinity false) noon
     = (Py.Raise (Py.OverflowError "cannot convert float infinity to integer"),
        noon)
  /\ generate_srt "a" Py.NaN noon
     <> (Py.Raise (Py.NameError "audio_path"), noon).
Proof. repeat split. discriminate. Qed.

(** C10, amended.  For every text and every spacing value, [generate_srt]
    never returns and changes nothing.  For every finite spacing value, and
    for every spacing value when the text is empty or whitespace only, it is
    line 63 that raises: once the captions are built it reads [audio_path],
    which is neither a local name of [generate_srt] nor bound in the module
    nor a builtin, and the call raises [NameError] before anything is
    removed or returned (the callee [os] of that line does resolve).  When
    [int(spacing)] raises and the text has a word, the call raises that
    exception instead. *)
Theorem C10_generate_srt_never_returns (text : string)
    (spacing : Py.number) (w : Py.world) :
  (exists e, generate_srt text spacing w = (Py.Raise e, w))
  /\ (forall q, spacing = Py.Finite q ->
      generate_srt text spacing w
      = (Py.Raise (Py.NameError "audio_path"), w))
  /\ (Py.all_space text = true ->
      generate_srt text spacing w
      = (Py.Raise (Py.NameError "audio_path"), w))
  /\ (forall e, Py.number_int spacing = Py.Raise e ->
      Py.all_space text = false ->
      generate_srt text spacing w = (Py.Raise e, w))
  /\ existsb (String.eqb "audio_path") Names.generate_srt_locals = false
  /\ Names.lookup "audio_path" Names.module_globals = None
  /\ Names.is_builtin "audio_path" = false
  /\ Names.load_global "os" w = (Py.Return (Names.Other "module os"), w)
  /\ Py.exn_str (Py.NameError "audio_path")
     = "name 'audio_path' is not defined".
Proof.
  split; [apply generate_srt_raises|].
  split; [intros q ->; apply generate_srt_outcome|].
  split; [apply generate_srt_blank|].
  split; [|repeat split].
  intros e He Hb. unfold generate_srt. cbv zeta.
  destruct (Py.split text) as [|x l] eqn:E.
  - apply split_nil_all_space in E. congruence.
  - now rewrite (run_loop_raises w spacing e _ x l initial_state He).
Qed.

Lemma C10_generate_srt_never_returns_witness :
  generate_srt "one two" (Py.Finite (2 # 1)) noon
  = (Py.Raise (Py.NameError "audio_path"), noon)
  /\ generate_srt "  " Py.NaN noon
     = (Py.Raise (Py.NameError "audio_path"), noon)
  /\ generate_srt "one two" (Py.Infinity true) noon
     = (Py.Raise (Py.OverflowError "cannot convert float infinity to integer"),
        noon).
Proof.
  split; [|split].
  - destruct (C10_generate_srt_never_returns "one two" (Py.Finite (2 # 1))
                noon) as (_ & H & _).
    apply (H (2 # 1)%Q). reflexivity.
  - destruct (C10_generate_srt_never_returns "  " Py.NaN noon)
      as (_ & _ & H & _).
    apply H. reflexivity.
  - destruct (C10_generate_srt_never_returns "one two" (Py.Infinity true)
                noon) as (_ & _ & _ & H & _).
    apply H; reflexivity.
Defined.

(** C7, on the code.  For an empty or whitespace-only text the loop builds
    no caption and the document to return would be the empty string, but the
    call does not return it: it raises [NameError] on line 63. *)
Theorem C7_blank_text_raises (text : string) (spacing : Q) (w : Py.world) :
  Py.all_space text = true ->
  Py.split text = []
  /\ captions_built w text spacing = []
  /\ document (captions_built w text spacing) = ""
  /\ generate_srt text (Py.Finite spacing) w
     = (Py.Raise (Py.NameError "audio_path"), w).
Proof.
  intros H. pose proof (generate_srt_outcome text spacing w) as G.
  apply split_all_space in H.
  unfold captions_built. rewrite H. repeat split. exact G.
Qed.

Lemma C7_blank_text_raises_witness :
  Py.split "   " = []
  /\ captions_built noon "   " (2 # 1) = []
  /\ document (captions_built noon "   " (2 # 1)) = ""
  /\ generate_srt "   " (Py.Finite (2 # 1)) noon
     = (Py.Raise (Py.NameError "audio_path"), noon).
Proof. apply (C7_blank_text_raises "   " (2 # 1) noon). reflexivity. Defined.

(** C9, on the code.  When the extraction succeeds and the recogniser
    raises an exception [e], [transcribe_audio] returns the text
    ["Error: " ++ str(e)]; [generate_srt_from_video] takes it for a
    transcription and hands it to [generate_srt], which segments the words
    of the error message into captions and then raises the [NameError] of
    line 63.  The caller receives that [NameError], whatever [e] was. *)
Theorem C9_recogniser_failure_is_captioned
    (transcriber : string -> Py.M string)
    (ffmpeg_run : string -> string -> Py.M unit)
    (video_path : string) (spacing : Q) (e : Py.exn) (w w1 w2 : Py.world) :
  let audio_path := Py.replace video_path ".mp4" "_audio.wav" in
  let message := "Error: " ++ Py.exn_str e in
  ffmpeg_run video_path audio_path w = (Py.Return tt, w1) ->
  transcriber audio_path w1 = (Py.Raise e, w2) ->
  Py.exn_is_Exception e = true ->
  transcribe_audio transcriber audio_path w1 = (Py.Return message, w2)
  /\ generate_srt_from_video transcriber ffmpeg_run video_path
       (Py.Finite spacing) w
     = generate_srt message (Py.Finite spacing) w2
  /\ generate_srt_from_video transcriber ffmpeg_run video_path
       (Py.Finite spacing) w
     = (Py.Raise (Py.NameError "audio_path"), w2)
  /\ Py.split message = "Error:" :: Py.split (Py.exn_str e)
  /\ blocks_built message spacing <> [].
Proof.
  cbv zeta. intros Hf Ht He.
  assert (Ha : transcribe_audio transcriber
                 (Py.replace video_path ".mp4" "_audio.wav") w1
               = (Py.Return ("Error: " ++ Py.exn_str e), w2)).
  { unfold transcribe_audio, Py.try_except, Py.bind. now rewrite Ht, He. }
  assert (Hg : generate_srt_from_video transcriber ffmpeg_run video_path
                 (Py.Finite spacing) w
               = generate_srt ("Error: " ++ Py.exn_str e)
                   (Py.Finite spacing) w2).
  { unfold generate_srt_from_video, extract_audio_from_video.
    unfold Py.bind at 1 2. rewrite Hf. unfold Py.ret at 1.
    unfold Py.bind at 1. rewrite Ha. reflexivity. }
  split; [exact Ha|]. split; [exact Hg|].
  split; [now rewrite Hg, generate_srt_outcome|].
  assert (Hs : Py.split ("Error: " ++ Py.exn_str e)
               = "Error:" :: Py.split (Py.exn_str e)) by reflexivity.
  split; [exact Hs|].
  unfold blocks_built. rewrite Hs. now apply blocks_of_words_nonempty.
Qed.

Lemma C9_recogniser_failure_is_captioned_witness :
  generate_srt_from_video (failing_transcriber boom) quiet_ffmpeg_run
    "clip.mp4" (Py.Finite (2 # 1)) noon
  = (Py.Raise (Py.NameError "audio_path"), noon)
  /\ captions_built noon "Error: boom" (2 # 1)
     = [ "1" ++ nl ++ "00:00:00 --> 00:00:03" ++ nl ++ "Error: boom" ++ nl ].
Proof.
  split; [|reflexivity].
  apply (C9_recogniser_failure_is_captioned (failing_transcriber boom)
           quiet_ffmpeg_run "clip.mp4" (2 # 1) boom noon noon noon);
    reflexivity.
Defined.

(* ================================================================= *)
(** ** Further properties of the segmentation                          *)
(* ================================================================= *)

Lemma full_blocks_length (n : Z) (bs : list CaptionBlock) :
  (forall i b, nth_error bs i = Some b -> block_size b = n) ->
  Z.of_nat (List.length (List.concat (map block_words bs)))
  = n * Z.of_nat (List.length bs).
Proof.
  induction bs as [|b bs IH]; intros H; cbn [map List.concat List.length].
  - lia.
  - rewrite length_app, Nat2Z.inj_add, IH.
    + pose proof (H 0%nat b eq_refl) as Hb. unfold block_size in Hb. lia.
    + intros i b' Hi. apply (H (S i)). exact Hi.
Qed.

Lemma blocks_of_words_length (words : list string) (spacing : Q) :
  Z.of_nat (List.length (blocks_of_words words spacing))
  = caption_count (Z.of_nat (List.length words)) (group_size spacing).
Proof.
  unfold blocks_of_words, trace_flush, caption_count.
  destruct (trace_inv_final spacing words) as [Hb _ _ Ho Hs].
  pose proof (group_size_pos spacing) as Hg.
  set (ts := fold_left _ words initial_trace) in *.
  assert (Hl : Z.of_nat (List.length words)
               = group_size spacing * Z.of_nat (List.length (blocks ts))
                 + Z.of_nat (List.length (open_group ts))).
  { rewrite <- Hs at 1. rewrite length_app, Nat2Z.inj_add. f_equal.
    apply full_blocks_length. intros i b H. apply (Hb i b H). }
  destruct (open_group ts) as [|x g] eqn:E.
  - cbn [List.length] in Hl.
    apply Z.div_unique with (r := group_size spacing - 1); lia.
  - rewrite length_app. cbn [List.length] in *.
    apply Z.div_unique with (r := Z.of_nat (List.length g)); lia.
Qed.

(** X1.  The loop builds as many captions as the number of words divided
    by the threshold, rounded up, and the last caption ends at that number
    times the fixed duration. *)
Theorem caption_count_and_end (w : Py.world) (words : list string)
    (spacing : Q) :
  let bs := blocks_of_words words spacing in
  let k := caption_count (Z.of_nat (List.length words)) (group_size spacing) in
  Z.of_nat (List.length (captions_of_words w words spacing)) = k
  /\ Z.of_nat (List.length bs) = k
  /\ (forall i b, nth_error bs i = Some b -> S i = List.length bs ->
        block_end b = k * time_per_caption spacing).
Proof.
  cbv zeta. rewrite captions_refine_blocks, length_map.
  pose proof (blocks_of_words_length words spacing) as Hk.
  repeat split; try exact Hk.
  intros i b H Hi.
  destruct (blocks_of_words_nth words spacing i b H) as ((_ & Hs & He) & _).
  rewrite He, Hs, <- Hk, <- Hi. lia.
Qed.

Lemma caption_count_and_end_witness :
  block_end (mk_block 3 6 9 ["e"]) = caption_count 5 2 * 3.
Proof.
  pose proof (caption_count_and_end noon ["a"; "b"; "c"; "d"; "e"] (2 # 1))
    as H.
  cbv zeta in H. destruct H as (_ & _ & H).
  apply (H 2%nat (mk_block 3 6 9 ["e"])); reflexivity.
Defined.

Lemma int_nonneg_bounds (x : Q) (k : Z) :
  (0 <= x)%Q -> ((x < inject_Z k)%Q <-> Py.int x < k).
Proof.
  intros H0. destruct (int_truncates x) as [Hp _].
  destruct (Hp H0) as [Hl Hu]. split; intros H.
  - rewrite Zlt_Qlt. eapply Qle_lt_trans; eassumption.
  - eapply Qlt_le_trans; [exact Hu|].
    change 1%Q with (inject_Z 1). rewrite <- inject_Z_plus.
    rewrite <- Zle_Qle. lia.
Qed.

(** X2.  The computed but unused limit [max_words_per_caption] is respected
    by the groups exactly for the controls below 6: there the threshold
    [max(1, int(spacing))] is at most the limit, and from 6 on it exceeds
    it. *)
Theorem threshold_within_limit_iff (spacing : Q) :
  group_size spacing <= max_words_per_caption spacing <-> (spacing < 6)%Q.
Proof.
  unfold group_size, max_words_per_caption.
  destruct (Qlt_le_dec spacing 0) as [Hneg|Hpos].
  - assert (H3 : (spacing < 3)%Q) by (eapply Qlt_trans; [exact Hneg|reflexivity]).
    assert (H6 : (spacing < 6)%Q) by (eapply Qlt_trans; [exact Hneg|reflexivity]).
    apply lt_spec in H3. rewrite H3.
    destruct (int_truncates spacing) as [_ Hn]. destruct (Hn Hneg) as [_ Hu].
    assert (Py.int spacing < 1).
    { rewrite Zlt_Qlt. eapply Qlt_trans; [exact Hu|].
      apply Qplus_lt_l with (z := (- (1))%Q).
      setoid_replace (spacing + 1 + - (1))%Q with spacing by ring.
      exact Hneg. }
    split; intros _; [exact H6 | lia].
  - pose proof (int_nonneg_bounds spacing 3 Hpos) as B3.
    pose proof (int_nonneg_bounds spacing 6 Hpos) as B6.
    change (inject_Z 3) with 3%Q in B3. change (inject_Z 6) with 6%Q in B6.
    destruct (Py.lt spacing 3) eqn:E.
    + apply lt_spec in E. split; intros _.
      * eapply Qlt_trans; [exact E | reflexivity].
      * apply B3 in E. lia.
    + rewrite B6. lia.
Qed.

(* ================================================================= *)
(** ** Words and caption text                                          *)
(* ================================================================= *)

Lemma string_app_assoc (a b c : string) : (a ++ b) ++ c = a ++ (b ++ c).
Proof. induction a as [|x a IH]; cbn; [reflexivity | now rewrite IH]. Qed.

Lemma string_app_nil_r (a : string) : a ++ "" = a.
Proof. induction a as [|x a IH]; cbn; [reflexivity | now rewrite IH]. Qed.

Lemma has_space_app (a b : string) :
  has_space (a ++ b) = has_space a || has_space b.
Proof.
  induction a as [|x a IH]; cbn; [reflexivity|].
  now rewrite IH, orb_assoc.
Qed.

Lemma split_from_tokens (s : string) :
  forall cur, has_space cur = false ->
  Forall (fun t => is_token t = true) (Py.split_from cur s).
Proof.
  induction s as [|c s IH]; intros cur Hc; cbn.
  - destruct (Py.nonempty_str cur) eqn:E; constructor; [|constructor].
    unfold is_token. now rewrite E, Hc.
  - destruct (Py.isspace c) eqn:Ec.
    + destruct (Py.nonempty_str cur) eqn:E.
      * constructor; [unfold is_token; now rewrite E, Hc | now apply IH].
      * now apply IH.
    + apply IH. rewrite has_space_app, Hc. cbn. now rewrite Ec.
Qed.

(** Reading a whitespace-free run only extends the word being read. *)
Lemma split_from_run (t : string) :
  forall cur rest, has_space t = false ->
  Py.split_from cur (t ++ rest) = Py.split_from (cur ++ t) rest.
Proof.
  induction t as [|c t IH]; intros cur rest H; cbn.
  - now rewrite string_app_nil_r.
  - cbn in H. apply orb_false_elim in H as [Hc Ht]. rewrite Hc.
    rewrite IH by exact Ht. now rewrite string_app_assoc.
Qed.

Lemma is_token_parts (t : string) :
  is_token t = true -> Py.nonempty_str t = true /\ has_space t = false.
Proof.
  unfold is_token. intros H. apply andb_prop in H as [H1 H2].
  split; [exact H1 | now apply negb_true_iff].
Qed.

Lemma split_join_tokens (ts : list string) :
  Forall (fun t => is_token t = true) ts ->
  Py.split (Py.join " " ts) = ts.
Proof.
  unfold Py.split, Py.join. induction ts as [|t ts IH]; intros H.
  - reflexivity.
  - inversion H as [|t' ts' Ht Hts]; subst.
    apply is_token_parts in Ht as [Hn Hs]. specialize (IH Hts).
    destruct ts as [|u ts]; cbn [String.concat].
    + rewrite <- (string_app_nil_r t) at 1.
      rewrite split_from_run by exact Hs. cbn. now rewrite Hn.
    + rewrite split_from_run by exact Hs. cbn [append Py.split_from].
      change (Py.isspace " ") with true. cbv iota. rewrite Hn.
      f_equal. exact IH.
Qed.

Lemma split_tokens (text : string) :
  Forall (fun t => is_token t = true) (Py.split text).
Proof. apply split_from_tokens. reflexivity. Qed.

(** X3.  Every word [text.split()] gives is non-empty and free of
    whitespace, and joining the words with single spaces and splitting
    again gives the same words. *)
Theorem split_gives_tokens (text : string) :
  Forall (fun t => is_token t = true) (Py.split text)
  /\ Py.split (Py.join " " (Py.split text)) = Py.split text.
Proof.
  split; [apply split_tokens | apply split_join_tokens, split_tokens].
Qed.

Lemma block_words_in_words (words : list string) (spacing : Q) i b x :
  nth_error (blocks_of_words words spacing) i = Some b ->
  In x (block_words b) -> In x words.
Proof.
  intros H Hx. rewrite <- (blocks_of_words_concat words spacing).
  apply in_concat. exists (block_words b). split; [|exact Hx].
  apply in_map. eapply nth_error_In, H.
Qed.

(** X4.  The text line of every caption built from a text splits back
    into exactly the words of its group: no caption line has an empty
    word, a doubled space, or a word of a neighbouring group. *)
Theorem caption_line_splits_to_group (text : string) (spacing : Q)
    (i : nat) (b : CaptionBlock) :
  nth_error (blocks_built text spacing) i = Some b ->
  Py.split (Py.join " " (block_words b)) = block_words b.
Proof.
  intros H. apply split_join_tokens, Forall_forall. intros x Hx.
  pose proof (split_tokens text) as Ht. rewrite Forall_forall in Ht.
  apply Ht. exact (block_words_in_words _ spacing i b x H Hx).
Qed.

Lemma caption_line_splits_to_group_witness :
  Py.split (Py.join " " (block_words (mk_block 2 3 6 ["c"; "d"])))
  = block_words (mk_block 2 3 6 ["c"; "d"]).
Proof.
  apply (caption_line_splits_to_group "  a b   c d" (2 # 1) 1%nat).
  reflexivity.
Defined.

Lemma caption_entry_nonempty w i t d g : caption_entry w i t d g <> "".
Proof.
  unfold caption_entry. destruct (Py.str_of_int i); discriminate.
Qed.

Lemma document_nil_iff (l : list string) :
  (forall x, In x l -> x <> "") -> (document l = "" <-> l = []).
Proof.
  intros H. split; [|now intros ->].
  destruct l as [|x [|y l]]; [reflexivity| |]; unfold document, Py.join;
    cbn [String.concat]; intros E; exfalso.
  - apply (H x); [now left | exact E].
  - apply (H x); [now left|]. destruct x; [reflexivity | discriminate].
Qed.

(** X5.  The loop builds no caption exactly when the text is empty or
    whitespace only; in every other case the list of captions and the
    document text of line 65 are non-empty. *)
Theorem no_caption_iff_blank (w : Py.world) (text : string) (spacing : Q) :
  (captions_built w text spacing = [] <-> Py.all_space text = true)
  /\ (document (captions_built w text spacing) = ""
      <-> Py.all_space text = true).
Proof.
  assert (A : captions_built w text spacing = []
              <-> Py.all_space text = true).
  { unfold captions_built. rewrite captions_refine_blocks. split.
    - intros H. apply split_nil_all_space.
      destruct (Py.split text) as [|x l] eqn:E; [reflexivity|].
      exfalso. apply (blocks_of_words_nonempty (x :: l) spacing);
        [discriminate|]. now apply map_eq_nil in H.
    - intros H. now rewrite (split_all_space text H). }
  split; [exact A|]. rewrite <- A. apply document_nil_iff.
  unfold captions_built. rewrite captions_refine_blocks.
  intros x Hx. apply in_map_iff in Hx as (b & <- & _).
  apply caption_entry_nonempty.
Qed.

(* ================================================================= *)
(** ** Time stamps                                                     *)
(* ================================================================= *)

Lemma hms_fields (w : Py.world) (t : Z) :
  hms w t = Py.two_digits ((t / 3600) mod 24) ++ ":"
            ++ Py.two_digits ((t / 60) mod 60) ++ ":"
            ++ Py.two_digits (t mod 60).
Proof.
  unfold hms, Py.gmtime. cbn [Py.strftime Py.tm_hour Py.tm_min Py.tm_sec].
  now rewrite string_app_nil_r.
Qed.

(** X6.  The stamps are times of day: a clock value and the same value one
    day (86400 seconds) later are printed alike, so from the caption that
    starts at 24 hours on the stamps start again at 00:00:00. *)
Theorem stamp_wraps_after_a_day (w : Py.world) (t : Z) :
  hms w (t + 86400) = hms w t
  /\ (forall i d g, caption_entry w i (t + 86400) d g = caption_entry w i t d g).
Proof.
  assert (H : forall u, hms w (u + 86400) = hms w u).
  { intros u. rewrite !hms_fields.
    assert (E1 : ((u + 86400) / 3600) mod 24 = (u / 3600) mod 24).
    { replace (u + 86400) with (u + 24 * 3600) by lia.
      rewrite Z.div_add by lia.
      replace (u / 3600 + 24) with (u / 3600 + 1 * 24) by lia.
      apply Z_mod_plus_full. }
    assert (E2 : ((u + 86400) / 60) mod 60 = (u / 60) mod 60).
    { replace (u + 86400) with (u + 1440 * 60) by lia.
      rewrite Z.div_add by lia.
      replace (u / 60 + 1440) with (u / 60 + 24 * 60) by lia.
      apply Z_mod_plus_full. }
    assert (E3 : (u + 86400) mod 60 = u mod 60).
    { replace (u + 86400) with (u + 1440 * 60) by lia.
      apply Z_mod_plus_full. }
    now rewrite E1, E2, E3. }
  split; [apply H|]. intros i d g. unfold caption_entry.
  replace (t + 86400 + d) with (t + d + 86400) by lia. now rewrite !H.
Qed.

Lemma two_digits_shape (n : Z) :
  0 <= n < 100 ->
  exists a b, Py.two_digits n = String a (String b "")
              /\ is_digit a = true /\ is_digit b = true.
Proof.
  intros H.
  assert (A : forallb (fun k =>
                match Py.two_digits (Z.of_nat k) with
                | String a (String b EmptyString) => is_digit a && is_digit b
                | _ => false
                end) (seq 0 100) = true) by (vm_compute; reflexivity).
  rewrite forallb_forall in A. specialize (A (Z.to_nat n)).
  rewrite Z2Nat.id in A by lia.
  assert (I : In (Z.to_nat n) (seq 0 100)) by (apply in_seq; lia).
  apply A in I.
  destruct (Py.two_digits n) as [|a [|b [|c s]]]; try discriminate.
  apply andb_prop in I as [Ia Ib]. now exists a, b.
Qed.

(** X7.  For every clock value the stamp printed for it has exactly the
    shape DD:DD:DD with decimal digits D (eight characters, no fraction of
    a second). *)
Theorem stamp_shape (w : Py.world) (t : Z) :
  is_hms (hms w t) = true /\ String.length (hms w t) = 8%nat.
Proof.
  rewrite hms_fields.
  destruct (two_digits_shape ((t / 3600) mod 24)) as (h1 & h2 & -> & H1 & H2);
    [pose proof (Z.mod_pos_bound (t / 3600) 24); lia|].
  destruct (two_digits_shape ((t / 60) mod 60)) as (m1 & m2 & -> & M1 & M2);
    [pose proof (Z.mod_pos_bound (t / 60) 60); lia|].
  destruct (two_digits_shape (t mod 60)) as (s1 & s2 & -> & S1 & S2);
    [pose proof (Z.mod_pos_bound t 60); lia|].
  cbn [append is_hms String.length]. rewrite H1, H2, M1, M2, S1, S2.
  split; reflexivity.
Qed.

(* ================================================================= *)
(** ** The audio path                                                  *)
(* ================================================================= *)

Lemma replace_from_absent (old new s : string) :
  str_contains old s = false -> Py.replace_from old new 0 s = s.
Proof.
  induction s as [|c s IH]; cbn [str_contains Py.replace_from]; intros H.
  - reflexivity.
  - apply orb_false_elim in H as [Hp Hs]. rewrite Hp. now rewrite IH.
Qed.

Lemma replace_from_stem (old new stem rest : string) :
  no_match_within old stem rest = true ->
  Py.replace_from old new 0 (stem ++ rest)
  = stem ++ Py.replace_from old new 0 rest.
Proof.
  induction stem as [|c stem IH]; cbn [no_match_within]; intros H.
  - reflexivity.
  - apply andb_prop in H as [Hp Hs]. apply negb_true_iff in Hp.
    change (String c stem ++ rest) with (String c (stem ++ rest)) in *.
    cbn [Py.replace_from]. rewrite Hp. cbn [append]. now rewrite IH.
Qed.

Lemma replace_from_skip (old new p rest : string) :
  Py.replace_from old new (String.length p) (p ++ rest)
  = Py.replace_from old new 0 rest.
Proof. induction p as [|c p IH]; cbn; [reflexivity | exact IH]. Qed.

Lemma prefix_app (a b : string) : String.prefix a (a ++ b) = true.
Proof.
  induction a as [|c a IH]; cbn; [now destruct b|].
  destruct (ascii_dec c c) as [_|N]; [exact IH | now elim N].
Qed.

Lemma replace_first_match (old new stem rest : string) :
  old <> "" ->
  no_match_within old stem (old ++ rest) = true ->
  Py.replace (stem ++ old ++ rest) old new
  = stem ++ new ++ Py.replace rest old new.
Proof.
  intros Hn H. unfold Py.replace. rewrite replace_from_stem by exact H.
  f_equal. destruct old as [|c old]; [now elim Hn|].
  change (String c old ++ rest) with (String c (old ++ rest)).
  cbn [Py.replace_from].
  change (String c (old ++ rest)) with (String c old ++ rest).
  rewrite prefix_app. f_equal. cbn [String.length].
  rewrite Nat.sub_succ, Nat.sub_0_r. apply replace_from_skip.
Qed.

(** X8.  When the video path contains no ".mp4" (another container, or an
    upper-case extension), the audio path computed on line 13 is the video
    path itself: ffmpeg is run with its output on its own input, and that
    same path is returned as the audio file. *)
Theorem audio_path_without_mp4
    (ffmpeg_run : string -> string -> Py.M unit) (video_path : string)
    (w : Py.world) :
  str_contains ".mp4" video_path = false ->
  Py.replace video_path ".mp4" "_audio.wav" = video_path
  /\ extract_audio_from_video ffmpeg_run video_path w
     = (_ <- ffmpeg_run video_path video_path ;; Py.ret video_path) w.
Proof.
  intros H.
  assert (E : Py.replace video_path ".mp4" "_audio.wav" = video_path)
    by (apply replace_from_absent, H).
  split; [exact E|]. unfold extract_audio_from_video. now rewrite E.
Qed.

Lemma audio_path_without_mp4_witness :
  Py.replace "take1.webm" ".mp4" "_audio.wav" = "take1.webm"
  /\ extract_audio_from_video quiet_ffmpeg_run "take1.webm" noon
     = (_ <- quiet_ffmpeg_run "take1.webm" "take1.webm" ;;
        Py.ret "take1.webm") noon.
Proof.
  apply (audio_path_without_mp4 quiet_ffmpeg_run "take1.webm" noon).
  reflexivity.
Defined.

(** X9.  When the first ".mp4" of the video path comes after [stem], the
    audio path is [stem], then "_audio.wav", then the rest of the path with
    each further ".mp4" replaced as well; for a path that ends in its only
    ".mp4" it is the path with that extension exchanged for "_audio.wav".
    ffmpeg is run from the video path to that audio path. *)
Theorem audio_path_with_mp4
    (ffmpeg_run : string -> string -> Py.M unit) (stem rest : string)
    (w : Py.world) :
  no_match_within ".mp4" stem (".mp4" ++ rest) = true ->
  let video_path := stem ++ ".mp4" ++ rest in
  let audio_path := stem ++ "_audio.wav"
                    ++ Py.replace rest ".mp4" "_audio.wav" in
  Py.replace video_path ".mp4" "_audio.wav" = audio_path
  /\ (rest = "" -> audio_path = stem ++ "_audio.wav")
  /\ extract_audio_from_video ffmpeg_run video_path w
     = (_ <- ffmpeg_run video_path audio_path ;; Py.ret audio_path) w.
Proof.
  intros H. cbv zeta.
  assert (E : Py.replace (stem ++ ".mp4" ++ rest) ".mp4" "_audio.wav"
              = stem ++ "_audio.wav" ++ Py.replace rest ".mp4" "_audio.wav")
    by (apply replace_first_match; [discriminate | exact H]).
  split; [exact E|]. split; [now intros ->|].
  unfold extract_audio_from_video. now rewrite E.
Qed.

Lemma audio_path_with_mp4_witness :
  Py.replace "in.mp4/clip.mp4" ".mp4" "_audio.wav"
  = "in_audio.wav/clip_audio.wav".
Proof.
  apply (audio_path_with_mp4 quiet_ffmpeg_run "in" "/clip.mp4" noon).
  reflexivity.
Defined.

(* ================================================================= *)
(** ** The request as a whole                                          *)
(* ================================================================= *)

(** X10.  [transcribe_audio] never raises an exception of class
    [Exception]: it returns the recogniser's text unchanged, or turns the
    recogniser's failure into a text that starts with "Error: " and is
    therefore never empty; only an exception outside [Exception] leaves
    it. *)
Theorem transcribe_audio_outcomes (transcriber : string -> Py.M string)
    (audio_path : string) (w : Py.world) :
  let r := transcribe_audio transcriber audio_path w in
  snd r = snd (transcriber audio_path w)
  /\ match fst (transcriber audio_path w) with
     | Py.Return text => fst r = Py.Return text
     | Py.Raise e =>
         if Py.exn_is_Exception e
         then fst r = Py.Return ("Error: " ++ Py.exn_str e)
              /\ Py.nonempty_str ("Error: " ++ Py.exn_str e) = true
         else fst r = Py.Raise e
     end
  /\ (forall e, fst r = Py.Raise e -> Py.exn_is_Exception e = false).
Proof.
  cbv zeta. unfold transcribe_audio, Py.try_except, Py.bind, Py.ret.
  destruct (transcriber audio_path w) as [[text|e] w']; cbn.
  - repeat split. discriminate.
  - destruct (Py.exn_is_Exception e) eqn:E; cbn; repeat split.
    + discriminate.
    + intros e' [= <-]. exact E.
Qed.

Lemma transcribe_audio_outcomes_witness :
  Py.exn_is_Exception interrupt = false.
Proof.
  pose proof (transcribe_audio_outcomes (failing_transcriber interrupt)
                "clip_audio.wav" noon) as H.
  cbv zeta in H. destruct H as (_ & _ & H).
  apply H. reflexivity.
Defined.

(** The outcome of a request, case by case on what the collaborators
    do. *)
Lemma request_cases (transcriber : string -> Py.M string)
    (ffmpeg_run : string -> string -> Py.M unit)
    (video_path : string) (spacing : Py.number) (w : Py.world) :
  generate_srt_from_video transcriber ffmpeg_run video_path spacing w
  = match ffmpeg_run video_path
            (Py.replace video_path ".mp4" "_audio.wav") w with
    | (Py.Raise e, w1) => (Py.Raise e, w1)
    | (Py.Return _, w1) =>
        match transcriber (Py.replace video_path ".mp4" "_audio.wav") w1 with
        | (Py.Return text, w2) =>
            if Py.nonempty_str text
            then generate_srt text spacing w2
            else (Py.Return "Error in transcription.", w2)
        | (Py.Raise e, w2) =>
            if Py.exn_is_Exception e
            then generate_srt ("Error: " ++ Py.exn_str e) spacing w2
            else (Py.Raise e, w2)
        end
    end.
Proof.
  unfold generate_srt_from_video, extract_audio_from_video, transcribe_audio,
    Py.try_except.
  unfold Py.bind at 1 2 3. unfold Py.ret at 1.
  destruct (ffmpeg_run video_path _ w) as [[[]|e] w1]; [|reflexivity].
  unfold Py.bind at 1. unfold Py.ret at 1.
  destruct (transcriber _ w1) as [[text|e] w2].
  - now destruct (Py.nonempty_str text).
  - destruct (Py.exn_is_Exception e); reflexivity.
Qed.

(** X11.  The only value [generate_srt_from_video] can return is the text
    "Error in transcription.", and it returns it exactly when the extraction
    succeeds and the recogniser returns the empty text; no call returns a
    caption document, whatever the spacing value. *)
Theorem request_returns_only_the_empty_notice
    (transcriber : string -> Py.M string)
    (ffmpeg_run : string -> string -> Py.M unit)
    (video_path : string) (spacing : Py.number) (w w' : Py.world)
    (doc : string) :
  let audio_path := Py.replace video_path ".mp4" "_audio.wav" in
  generate_srt_from_video transcriber ffmpeg_run video_path spacing w
  = (Py.Return doc, w')
  <-> (doc = "Error in transcription."
       /\ exists w1, ffmpeg_run video_path audio_path w = (Py.Return tt, w1)
                     /\ transcriber audio_path w1 = (Py.Return "", w')).
Proof.
  cbv zeta. rewrite request_cases.
  destruct (ffmpeg_run video_path _ w) as [[[]|e] w1] eqn:Ef.
  - destruct (transcriber _ w1) as [[text|e] w2] eqn:Et.
    + destruct text as [|c text]; cbn [Py.nonempty_str].
      * split.
        -- intros [= <- <-]. split; [reflexivity|]. now exists w1.
        -- intros (-> & w1' & [= <-] & Et'). rewrite Et in Et'.
           now inversion Et'.
      * destruct (generate_srt_raises (String c text) spacing w2) as [x ->].
        split; [discriminate|].
        intros (_ & w1' & [= <-] & Et'). rewrite Et in Et'. discriminate.
    + split.
      * destruct (Py.exn_is_Exception e); [|discriminate].
        destruct (generate_srt_raises ("Error: " ++ Py.exn_str e) spacing w2)
          as [x ->]. discriminate.
      * intros (_ & w1' & [= <-] & Et'). rewrite Et in Et'. discriminate.
  - split; [discriminate|]. intros (_ & w1' & Ef' & _). discriminate.
Qed.

Lemma request_returns_only_the_empty_notice_witness :
  generate_srt_from_video (returning_transcriber "") quiet_ffmpeg_run
    "clip.mp4" (Py.Finite (2 # 1)) noon
  = (Py.Return "Error in transcription.", noon).
Proof.
  apply (proj2 (request_returns_only_the_empty_notice
                  (returning_transcriber "") quiet_ffmpeg_run "clip.mp4"
                  (Py.Finite (2 # 1)) noon noon "Error in transcription.")).
  split; [reflexivity|]. exists noon. split; reflexivity.
Defined.

(** X12.  Whatever happens, the intermediate audio file is not removed:
    after a call the world is the one the last collaborator that ran left
    behind (the extraction when it fails, the recogniser otherwise), and a
    failure of the extraction reaches the caller unchanged, the recogniser
    not being run. *)
Theorem request_leaves_the_world_to_collaborators
    (transcriber : string -> Py.M string)
    (ffmpeg_run : string -> string -> Py.M unit)
    (video_path : string) (spacing : Py.number) (w : Py.world) :
  let audio_path := Py.replace video_path ".mp4" "_audio.wav" in
  let r := generate_srt_from_video transcriber ffmpeg_run video_path spacing w in
  match ffmpeg_run video_path audio_path w with
  | (Py.Raise e, w1) => r = (Py.Raise e, w1)
  | (Py.Return _, w1) => snd r = snd (transcriber audio_path w1)
  end.
Proof.
  cbv zeta. rewrite request_cases.
  destruct (ffmpeg_run video_path _ w) as [[[]|e] w1]; [|reflexivity].
  destruct (transcriber _ w1) as [[text|e] w2].
  - destruct (Py.nonempty_str text); [|reflexivity].
    now destruct (generate_srt_raises text spacing w2) as [x ->].
  - destruct (Py.exn_is_Exception e); [|reflexivity].
    now destruct (generate_srt_raises ("Error: " ++ Py.exn_str e) spacing w2)
      as [x ->].
Qed.

(** X13.  A successful transcription of a text that is not empty never
    reaches the caller: the request is then the call of [generate_srt] on
    that text, which raises for every spacing value; for every finite
    spacing value, and whatever the text, the exception is the [NameError]
    of line 63. *)
Theorem request_with_text_raises
    (transcriber : string -> Py.M string)
    (ffmpeg_run : string -> string -> Py.M unit)
    (video_path : string) (spacing : Py.number) (text : string)
    (w w1 w2 : Py.world) :
  ffmpeg_run video_path (Py.replace video_path ".mp4" "_audio.wav") w
  = (Py.Return tt, w1) ->
  transcriber (Py.replace video_path ".mp4" "_audio.wav") w1
  = (Py.Return text, w2) ->
  text <> "" ->
  let r :=
    generate_srt_from_video transcriber ffmpeg_run video_path spacing w in
  r = generate_srt text spacing w2
  /\ (exists e, r = (Py.Raise e, w2))
  /\ (forall q, spacing = Py.Finite q ->
      r = (Py.Raise (Py.NameError "audio_path"), w2)).
Proof.
  intros Hf Ht Hn. cbv zeta.
  assert (E : generate_srt_from_video transcriber ffmpeg_run video_path
                spacing w = generate_srt text spacing w2).
  { rewrite request_cases, Hf, Ht.
    destruct text as [|c text]; [now elim Hn | reflexivity]. }
  rewrite E. split; [reflexivity|].
  split; [apply generate_srt_raises|].
  intros q ->. apply generate_srt_outcome.
Qed.

Lemma request_with_text_raises_witness :
  generate_srt_from_video (returning_transcriber "HELLO WORLD")
    quiet_ffmpeg_run "clip.mp4" (Py.Finite (2 # 1)) noon
  = (Py.Raise (Py.NameError "audio_path"), noon).
Proof.
  assert (N : "HELLO WORLD" <> "") by discriminate.
  destruct (request_with_text_raises (returning_transcriber "HELLO WORLD")
              quiet_ffmpeg_run "clip.mp4" (Py.Finite (2 # 1)) "HELLO WORLD"
              noon noon noon eq_refl eq_refl N) as (_ & _ & H).
  apply (H (2 # 1)%Q). reflexivity.
Defined.

(* ================================================================= *)
(** ** Choosing the input                                              *)
(* ================================================================= *)

(** X14.  [combine_inputs] returns [None] exactly when neither input is
    usable ([None] or the empty text); otherwise it returns a usable value
    that is the recorded video when that one is usable and the uploaded file
    if not.  An empty text is never passed on. *)
Theorem combine_inputs_choice (recorded_video uploaded_file : option string) :
  let r := combine_inputs recorded_video uploaded_file in
  (r = None <-> truthy recorded_video = false /\ truthy uploaded_file = false)
  /\ (truthy recorded_video = true -> r = recorded_video)
  /\ (truthy recorded_video = false -> truthy uploaded_file = true ->
      r = uploaded_file)
  /\ (r <> None -> truthy r = true)
  /\ r <> Some "".
Proof.
  cbv zeta. unfold combine_inputs.
  destruct recorded_video as [[|c s]|], uploaded_file as [[|c' s']|];
    cbn; repeat split; intros; try discriminate; try reflexivity;
    try congruence; try (destruct H; discriminate).
Qed.

Lemma combine_inputs_choice_witness :
  combine_inputs (Some "") (Some "up.mp4") = Some "up.mp4".
Proof.
  pose proof (combine_inputs_choice (Some "") (Some "up.mp4")) as H.
  cbv zeta in H. destruct H as (_ & _ & H & _).
  apply H; reflexivity.
Defined.
